(** * djangocms-picture: the Picture plugin model

    A shallow embedding of [djangocms_picture/models.py]: the module-level
    choice tuples, the fields of the [Picture] model and its three methods
    [__str__], [get_size], [get_link] and [clean].

    Django, django-cms and filer are outside the repository.  Their model
    classes ([Page], [FilerImage]) are kept abstract, Python's truth test is a
    type class, and [raise ValidationError(...)] is an error monad. *)

From Stdlib Require Import ZArith String List Bool.
From stdpp Require Import base option strings pretty gmap.

Open Scope Z_scope.
Open Scope string_scope.

(** ** Python's truth test

    [if x:], [x and y], [x or y] and [not x] only look at the truth value of
    their operands. *)

Class Truthy (A : Type) := truthy : A → bool.

(** [bool(b)] for a [BooleanField]. *)
#[global] Instance bool_truthy : Truthy bool := fun b => b.

(** An integer is true unless it is zero. *)
#[global] Instance int_truthy : Truthy Z := fun z => negb (z =? 0)%Z.

(** A string is true unless it is empty. *)
#[global] Instance str_truthy : Truthy string :=
  fun s => match s with EmptyString => false | String _ _ => true end.

(** A nullable field: [None] is false, anything else answers for itself. *)
#[global] Instance nullable_truthy {A} `{Truthy A} : Truthy (option A) :=
  fun o => match o with None => false | Some a => truthy a end.

(** ** Values handed to the template layer *)

(** [get_link] returns either a string or the constant [False]. *)
Inductive pyval : Type :=
  | PyStr (s : string)
  | PyBool (b : bool).

(** ** Validation errors

    [clean] has three [raise ValidationError(...)] sites; the constructor says
    which one fired and [message] is the text it carries. *)

Inductive ValidationError : Type :=
  | ConflictingLinkError
  | MissingImageSourceError
  | ConflictingCroppingOptionsError.

Definition message (e : ValidationError) : string :=
  match e with
  | ConflictingLinkError =>
      "You have defined an external and internal link. " ++
      "Only one option is allowed."
  | MissingImageSourceError =>
      "You need to add either a picture or an external link."
  | ConflictingCroppingOptionsError =>
      "The cropping selection is not valid. " ++
      "You cannot combine certain options."
  end.

(** A computation that returns or raises. *)
Inductive outcome (A : Type) : Type :=
  | Return (a : A)
  | Raise (e : ValidationError).
Arguments Return {A} a.
Arguments Raise {A} e.

Definition bind {A B} (m : outcome A) (k : A → outcome B) : outcome B :=
  match m with
  | Return a => k a
  | Raise e => Raise e
  end.

(** [if cond: raise e] *)
Definition raise_if (cond : bool) (e : ValidationError) : outcome unit :=
  if cond then Raise e else Return tt.

Notation "m ;;; k" := (bind m (fun _ => k))
  (at level 100, right associativity).

(** ** Module-level constants *)

(** A Django [choices] tuple: (stored value, label). *)
Abbreviation choices := (list (string * string)).

(** [getattr(settings, name, default)] over the host's settings. *)
Definition getattr (settings : gmap string choices) (name : string)
    (dflt : choices) : choices :=
  match settings !! name with
  | Some v => v
  | None => dflt
  end.

Definition PICTURE_ALIGNMENT (settings : gmap string choices) : choices :=
  getattr settings "DJANGOCMS_PICTURE_ALIGN"
    [ ("left", "Align left");
      ("right", "Align right");
      ("left", "Align center") ].

Definition LINK_TARGET : choices :=
  [ ("_blank", "Open in new window.");
    ("_self", "Open in same window.");
    ("_parent", "Delegate to parent.");
    ("_top", "Delegate to top.") ].

(** The stored values of a choice tuple. *)
Definition choice_values (cs : choices) : list string := map fst cs.

(** How many choices store the value [v]. *)
Definition count_value (v : string) (cs : choices) : nat :=
  length (filter (fun s => bool_decide (s = v)) (choice_values cs)).

(** ** filer's [ThumbnailOption]: the four columns [get_size] reads *)

Record ThumbnailOption : Type := {
  thumb_width : Z;
  thumb_height : Z;
  thumb_crop : bool;
  thumb_upscale : bool;
}.

(** A model instance defines neither [__bool__] nor [__len__]: it is true. *)
#[global] Instance ThumbnailOption_truthy : Truthy ThumbnailOption :=
  fun _ => true.

(** The dictionary built by [get_size]. *)
Record options : Type := {
  size : Z * Z;
  crop : bool;
  upscale : bool;
}.

(** The five cropping toggles of the specification. *)
Inductive toggle : Type :=
  | AutomaticScaling
  | NoCropping
  | ThumbnailSet
  | Crop
  | Upscale.

(** Automatic scaling excludes the other four, no-cropping excludes crop,
    upscale and thumbnail, thumbnail excludes crop and upscale. *)
Definition spec_forbidden_pairs : list (toggle * toggle) :=
  [ (AutomaticScaling, NoCropping);
    (AutomaticScaling, Crop);
    (AutomaticScaling, Upscale);
    (AutomaticScaling, ThumbnailSet);
    (NoCropping, Crop);
    (NoCropping, Upscale);
    (NoCropping, ThumbnailSet);
    (ThumbnailSet, Crop);
    (ThumbnailSet, Upscale) ].

Section Picture.

(** django-cms pages and filer images, and the one method called on a page. *)
Context {Page FilerImage : Type}.
Variable get_absolute_url : Page → string.

#[local] Instance Page_truthy : Truthy Page := fun _ => true.
#[local] Instance FilerImage_truthy : Truthy FilerImage := fun _ => true.

(** ** The model *)

Record Picture : Type := {
  picture : option FilerImage;
  external_picture : string;
  width : option Z;
  height : option Z;
  alignment : string;
  caption_text : string;
  attributes : gmap string string;
  link_url : string;
  link_page : option Page;
  link_target : string;
  link_attributes : gmap string string;
  use_automatic_scaling : bool;
  use_no_cropping : bool;
  use_crop : bool;
  use_upscale : bool;
  use_thumbnail : option ThumbnailOption;
}.

(** ** [Picture.get_size] *)

Definition get_size (self : Picture) : options :=
  let width0 := 0 in
  let height0 := 0 in
  let crop0 := false in
  let upscale0 := false in
  (* use width and height attributes *)
  let width1 :=
    match width self with
    | Some w => if truthy w then w else width0
    | None => width0
    end in
  let height1 :=
    match height self with
    | Some h => if truthy h then h else height0
    | None => height0
    end in
  (* use field cropping options *)
  let crop1 := if truthy (use_crop self) then use_crop self else crop0 in
  let upscale1 :=
    if truthy (use_upscale self) then use_upscale self else upscale0 in
  (* use field thumbnail settings *)
  match use_thumbnail self with
  | Some t =>
      if truthy t
      then {| size := (thumb_width t, thumb_height t);
              crop := thumb_crop t;
              upscale := thumb_upscale t |}
      else {| size := (width1, height1); crop := crop1; upscale := upscale1 |}
  | None => {| size := (width1, height1); crop := crop1; upscale := upscale1 |}
  end.

(** ** [Picture.get_link] *)

Definition get_link (self : Picture) : pyval :=
  if truthy (link_url self) then PyStr (link_url self)
  else
    match link_page self with
    | Some p =>
        if truthy p then PyStr (get_absolute_url p) else PyBool false
    | None => PyBool false
    end.

(** ** [Picture.clean] *)

(** The condition of the third [if], pair by pair as the source lists them. *)
Definition cropping_conflict (self : Picture) : bool :=
  truthy (use_automatic_scaling self) && truthy (use_no_cropping self) ||
  truthy (use_automatic_scaling self) && truthy (use_crop self) ||
  truthy (use_automatic_scaling self) && truthy (use_upscale self) ||
  truthy (use_automatic_scaling self) && truthy (use_thumbnail self) ||
  truthy (use_no_cropping self) && truthy (use_crop self) ||
  truthy (use_no_cropping self) && truthy (use_upscale self) ||
  truthy (use_no_cropping self) && truthy (use_thumbnail self) ||
  truthy (use_thumbnail self) && truthy (use_crop self) ||
  truthy (use_thumbnail self) && truthy (use_upscale self).

(** The condition of the first [if]: [self.link_url and self.link_page]. *)
Definition link_conflict (self : Picture) : bool :=
  truthy (link_url self) && truthy (link_page self).

(** The condition of the second [if]:
    [not self.picture and not self.external_picture]. *)
Definition image_missing (self : Picture) : bool :=
  negb (truthy (picture self)) && negb (truthy (external_picture self)).

Definition clean (self : Picture) : outcome unit :=
  (* there can be only one link type *)
  raise_if (link_conflict self) ConflictingLinkError ;;;
  (* you shall only set one image kind *)
  raise_if (image_missing self) MissingImageSourceError ;;;
  (* certain cropping settings do not play nice with one another *)
  raise_if (cropping_conflict self) ConflictingCroppingOptionsError ;;;
  Return tt.

(** ** The specification's vocabulary

    The five cropping toggles and the nine pairs the specification forbids,
    written from the specification and compared with [cropping_conflict]
    below. *)

Definition toggle_on (self : Picture) (t : toggle) : bool :=
  match t with
  | AutomaticScaling => use_automatic_scaling self
  | NoCropping => use_no_cropping self
  | ThumbnailSet =>
      match use_thumbnail self with Some _ => true | None => false end
  | Crop => use_crop self
  | Upscale => use_upscale self
  end.

Definition spec_forbidden_pair (self : Picture) : Prop :=
  ∃ a b : toggle,
    (a, b) ∈ spec_forbidden_pairs ∧
    toggle_on self a = true ∧ toggle_on self b = true.

(** The link check passes: at most one of the two link fields is set. *)
Definition at_most_one_link (self : Picture) : Prop :=
  link_url self = "" ∨ link_page self = None.

(** The image-source check passes: an embedded or an external image. *)
Definition has_image_source (self : Picture) : Prop :=
  is_Some (picture self) ∨ external_picture self ≠ "".

(** Two configurations that differ at most in [use_automatic_scaling] and
    [use_no_cropping]. *)
Definition same_except_scaling_flags (a b : Picture) : Prop :=
  picture a = picture b ∧
  external_picture a = external_picture b ∧
  width a = width b ∧
  height a = height b ∧
  alignment a = alignment b ∧
  caption_text a = caption_text b ∧
  attributes a = attributes b ∧
  link_url a = link_url b ∧
  link_page a = link_page b ∧
  link_target a = link_target b ∧
  link_attributes a = link_attributes b ∧
  use_crop a = use_crop b ∧
  use_upscale a = use_upscale b ∧
  use_thumbnail a = use_thumbnail b.

(** Two configurations that differ at most in [picture] and
    [external_picture]. *)
Definition same_except_image_source (a b : Picture) : Prop :=
  width a = width b ∧
  height a = height b ∧
  alignment a = alignment b ∧
  caption_text a = caption_text b ∧
  attributes a = attributes b ∧
  link_url a = link_url b ∧
  link_page a = link_page b ∧
  link_target a = link_target b ∧
  link_attributes a = link_attributes b ∧
  use_automatic_scaling a = use_automatic_scaling b ∧
  use_no_cropping a = use_no_cropping b ∧
  use_crop a = use_crop b ∧
  use_upscale a = use_upscale b ∧
  use_thumbnail a = use_thumbnail b.

(** Two configurations that differ at most in the fields that only the
    template reads: size, alignment, caption, attributes and link target. *)
Definition same_except_presentation (a b : Picture) : Prop :=
  picture a = picture b ∧
  external_picture a = external_picture b ∧
  link_url a = link_url b ∧
  link_page a = link_page b ∧
  use_automatic_scaling a = use_automatic_scaling b ∧
  use_no_cropping a = use_no_cropping b ∧
  use_crop a = use_crop b ∧
  use_upscale a = use_upscale b ∧
  use_thumbnail a = use_thumbnail b.

(** Two configurations that differ at most in [width] and [height]. *)
Definition same_except_size (a b : Picture) : Prop :=
  picture a = picture b ∧
  external_picture a = external_picture b ∧
  alignment a = alignment b ∧
  caption_text a = caption_text b ∧
  attributes a = attributes b ∧
  link_url a = link_url b ∧
  link_page a = link_page b ∧
  link_target a = link_target b ∧
  link_attributes a = link_attributes b ∧
  use_automatic_scaling a = use_automatic_scaling b ∧
  use_no_cropping a = use_no_cropping b ∧
  use_crop a = use_crop b ∧
  use_upscale a = use_upscale b ∧
  use_thumbnail a = use_thumbnail b.

(** ** [Picture.__str__] *)

(** filer's [label] of an image. *)
Variable label : FilerImage → string.

(** [str(self.pk)]: the primary key comes with the [CMSPlugin] row, an
    integer once the plugin is saved and [None] before. *)
Definition str_pk (pk : option Z) : string :=
  match pk with
  | Some z => pretty z
  | None => "None"
  end.

Definition __str__ (pk : option Z) (self : Picture) : string :=
  let fallback :=
    (* str(self.link_url or self.pk) *)
    if truthy (link_url self) then link_url self else str_pk pk in
  match picture self with
  | Some img =>
      if truthy img && truthy (label img) then label img else fallback
  | None => fallback
  end.

End Picture.

Arguments Picture : clear implicits.

(** ** Concrete configurations

    Pages are stood for by the path they resolve to and images by their
    label. *)

Abbreviation demo := (Picture string string).

(** A freshly constructed plugin: every field at its declared default. *)
Definition fresh : demo := {|
  picture := None;
  external_picture := "";
  width := None;
  height := None;
  alignment := "";
  caption_text := "";
  attributes := ∅;
  link_url := "";
  link_page := None;
  link_target := "";
  link_attributes := ∅;
  use_automatic_scaling := true;
  use_no_cropping := false;
  use_crop := false;
  use_upscale := false;
  use_thumbnail := None;
|}.

Definition with_picture (img : option string) (ext : string) (p : demo)
    : demo := {|
  picture := img;
  external_picture := ext;
  width := width p;
  height := height p;
  alignment := alignment p;
  caption_text := caption_text p;
  attributes := attributes p;
  link_url := link_url p;
  link_page := link_page p;
  link_target := link_target p;
  link_attributes := link_attributes p;
  use_automatic_scaling := use_automatic_scaling p;
  use_no_cropping := use_no_cropping p;
  use_crop := use_crop p;
  use_upscale := use_upscale p;
  use_thumbnail := use_thumbnail p;
|}.

Definition with_size (w h : option Z) (p : demo) : demo := {|
  picture := picture p;
  external_picture := external_picture p;
  width := w;
  height := h;
  alignment := alignment p;
  caption_text := caption_text p;
  attributes := attributes p;
  link_url := link_url p;
  link_page := link_page p;
  link_target := link_target p;
  link_attributes := link_attributes p;
  use_automatic_scaling := use_automatic_scaling p;
  use_no_cropping := use_no_cropping p;
  use_crop := use_crop p;
  use_upscale := use_upscale p;
  use_thumbnail := use_thumbnail p;
|}.

Definition with_links (url : string) (page : option string) (p : demo)
    : demo := {|
  picture := picture p;
  external_picture := external_picture p;
  width := width p;
  height := height p;
  alignment := alignment p;
  caption_text := caption_text p;
  attributes := attributes p;
  link_url := url;
  link_page := page;
  link_target := link_target p;
  link_attributes := link_attributes p;
  use_automatic_scaling := use_automatic_scaling p;
  use_no_cropping := use_no_cropping p;
  use_crop := use_crop p;
  use_upscale := use_upscale p;
  use_thumbnail := use_thumbnail p;
|}.

Definition with_cropping (auto nocrop docrop doupscale : bool)
    (thumb : option ThumbnailOption) (p : demo) : demo := {|
  picture := picture p;
  external_picture := external_picture p;
  width := width p;
  height := height p;
  alignment := alignment p;
  caption_text := caption_text p;
  attributes := attributes p;
  link_url := link_url p;
  link_page := link_page p;
  link_target := link_target p;
  link_attributes := link_attributes p;
  use_automatic_scaling := auto;
  use_no_cropping := nocrop;
  use_crop := docrop;
  use_upscale := doupscale;
  use_thumbnail := thumb;
|}.

(** The preset of the precedence example: 300x200, no crop, upscale. *)
Definition preset_300x200 : ThumbnailOption := {|
  thumb_width := 300;
  thumb_height := 200;
  thumb_crop := false;
  thumb_upscale := true;
|}.

(** Explicit 100x50 with [use_crop], and the preset on top. *)
Definition precedence_example : demo :=
  with_cropping false false true false (Some preset_300x200)
    (with_size (Some 100) (Some 50) (with_picture (Some "photo") "" fresh)).

(** No size, no toggle, no preset. *)
Definition no_overrides : demo :=
  with_cropping false false false false None
    (with_picture (Some "photo") "" fresh).

(** Crop and upscale together, nothing else. *)
Definition crop_and_upscale : demo :=
  with_cropping false false true true None
    (with_picture (Some "photo") "" fresh).

(** Both link fields set, an image attached, the default toggles. *)
Definition two_links : demo :=
  with_links "https://example.com/" (Some "/about/")
    (with_picture (Some "photo") "" fresh).

(** Both link fields set and no image source at all. *)
Definition two_links_no_image : demo :=
  with_links "https://example.com/" (Some "/about/") fresh.

(** Both link fields set, an image attached, and two toggles that exclude
    each other. *)
Definition two_links_bad_cropping : demo :=
  with_cropping true true false false None two_links.

(** No image source, one link. *)
Definition no_image : demo :=
  with_links "https://example.com/" None fresh.

(** Only the internal link, to a page that resolves to [/about/]. *)
Definition page_link_only : demo :=
  with_links "" (Some "/about/") (with_picture (Some "photo") "" fresh).

(** An embedded image, explicit 100x50, [use_crop] only. *)
Definition manual_crop : demo :=
  with_cropping false false true false None
    (with_size (Some 100) (Some 50) (with_picture (Some "photo") "" fresh)).

(** The same with both intent flags switched on. *)
Definition manual_crop_flagged : demo :=
  with_cropping true true true false None manual_crop.

(** The same with an external image in place of the embedded one. *)
Definition manual_crop_external : demo :=
  with_picture None "https://example.com/photo.png" manual_crop.

(** Settings that do not mention the alignment choices. *)
Definition no_settings : gmap string choices := ∅.

(** An embedded image and explicit 100x50 under the default toggles. *)
Definition auto_sized : demo :=
  with_size (Some 100) (Some 50) (with_picture (Some "photo") "" fresh).

(** The preset alone, with and without an explicit size beside it. *)
Definition preset_sized : demo :=
  with_cropping false false false false (Some preset_300x200) auto_sized.

Definition preset_unsized : demo := with_size None None preset_sized.

(** [manual_crop] with a stored size of 0x0, and with no size. *)
Definition zero_sized : demo := with_size (Some 0) (Some 0) manual_crop.

Definition unsized : demo := with_size None None manual_crop.

(** An internal link to a page whose URL comes out empty. *)
Definition blank_page_link : demo :=
  with_links "" (Some "") (with_picture (Some "photo") "" fresh).

(** An image without a label and an external link. *)
Definition unlabelled_linked : demo :=
  with_links "https://example.com/" None (with_picture (Some "") "" fresh).

(** An external image, no link. *)
Definition external_only : demo :=
  with_picture None "https://example.com/photo.png" fresh.

(** * Properties *)

(** ** Truth values *)

Lemma truthy_str (s : string) : truthy s = true ↔ s ≠ "".
Proof. destruct s; cbn; split; intros; congruence. Qed.

Lemma truthy_str_false (s : string) : truthy s = false ↔ s = "".
Proof. destruct s; cbn; split; intros; congruence. Qed.

Lemma truthy_int (z : Z) : truthy z = false ↔ z = 0.
Proof.
  unfold truthy, int_truthy.
  destruct (Z.eqb_spec z 0); cbn; split; intros; congruence.
Qed.

(** Unfold the truth test of the nullable model fields. *)
Ltac truth :=
  cbv [truthy nullable_truthy bool_truthy ThumbnailOption_truthy
       Page_truthy FilerImage_truthy] in *.

Lemma bind_raise_if {A} (cond : bool) (e : ValidationError)
    (k : outcome A) :
  (raise_if cond e ;;; k) = if cond then Raise e else k.
Proof. destruct cond; reflexivity. Qed.

Section Properties.

Context {Page FilerImage : Type}.
Variable get_absolute_url : Page → string.

Implicit Types self : Picture Page FilerImage.

(** ** [clean], check by check *)

(** The three checks run in order and the first that fails decides. *)
Lemma clean_cases self :
  clean self =
    if link_conflict self then Raise ConflictingLinkError
    else if image_missing self then Raise MissingImageSourceError
    else if cropping_conflict self
    then Raise ConflictingCroppingOptionsError
    else Return tt.
Proof. unfold clean. by rewrite !bind_raise_if. Qed.

Lemma link_conflict_true self :
  link_conflict self = true ↔
  link_url self ≠ "" ∧ is_Some (link_page self).
Proof.
  unfold link_conflict. rewrite andb_true_iff, truthy_str.
  destruct (link_page self); truth; split; intros [? H]; split;
    first [done | by eexists | by destruct H].
Qed.

Lemma link_conflict_false self :
  link_conflict self = false ↔ at_most_one_link self.
Proof.
  unfold link_conflict, at_most_one_link.
  rewrite andb_false_iff, truthy_str_false.
  destruct (link_page self); truth; split; intros [?|?]; auto; congruence.
Qed.

Lemma image_missing_true self :
  image_missing self = true ↔
  picture self = None ∧ external_picture self = "".
Proof.
  unfold image_missing.
  rewrite andb_true_iff, !negb_true_iff, truthy_str_false.
  destruct (picture self); truth; split; intros [? ?]; split; congruence.
Qed.

Lemma image_missing_false self :
  image_missing self = false ↔ has_image_source self.
Proof.
  unfold image_missing, has_image_source.
  rewrite andb_false_iff, !negb_false_iff, truthy_str.
  destruct (picture self); truth; split; intros [H|H]; auto;
    first [congruence | by destruct H | left; by eexists].
Qed.

(** The condition of the cropping check is a search through the nine pairs. *)
Lemma cropping_conflict_existsb self :
  cropping_conflict self =
    existsb (fun ab => toggle_on self ab.1 && toggle_on self ab.2)
      spec_forbidden_pairs.
Proof.
  unfold cropping_conflict. truth. cbn.
  destruct (use_automatic_scaling self), (use_no_cropping self),
    (use_crop self), (use_upscale self), (use_thumbnail self);
    reflexivity.
Qed.

(** The code's condition holds exactly when a forbidden pair is on. *)
Lemma cropping_conflict_spec self :
  cropping_conflict self = true ↔ spec_forbidden_pair self.
Proof.
  rewrite cropping_conflict_existsb, existsb_exists.
  unfold spec_forbidden_pair. split.
  - intros [[a b] [Hin Hon]]. exists a, b.
    apply andb_true_iff in Hon.
    split; [by apply list_elem_of_In | exact Hon].
  - intros (a & b & Hin & Ha & Hb). exists (a, b).
    split; [by apply list_elem_of_In | cbn; by rewrite Ha, Hb].
Qed.

(** The nine pairs are all the pairs of distinct toggles but crop with
    upscale, each listed once and in one direction. *)
Lemma spec_forbidden_pairs_complete (a b : toggle) :
  a ≠ b →
  (a, b) ∈ spec_forbidden_pairs ∨ (b, a) ∈ spec_forbidden_pairs ∨
  (a = Crop ∧ b = Upscale) ∨ (a = Upscale ∧ b = Crop).
Proof.
  unfold spec_forbidden_pairs. intros Hab.
  destruct a, b; try congruence;
    first [ left; by repeat constructor
          | right; left; by repeat constructor
          | right; right; left; done
          | right; right; right; done ].
Qed.

Lemma crop_upscale_not_forbidden :
  ((Crop, Upscale) ∉ spec_forbidden_pairs) ∧
  ((Upscale, Crop) ∉ spec_forbidden_pairs).
Proof.
  unfold spec_forbidden_pairs.
  split; intros H; repeat (apply elem_of_cons in H as [H|H]; [done|]);
    by apply elem_of_nil in H.
Qed.

(** Crop together with upscale, and nothing else, is no forbidden pair. *)
Lemma crop_upscale_alone_allowed self :
  use_automatic_scaling self = false →
  use_no_cropping self = false →
  use_thumbnail self = None →
  cropping_conflict self = false.
Proof.
  intros Ha Hn Ht. unfold cropping_conflict. rewrite Ha, Hn, Ht. truth.
  by destruct (use_crop self), (use_upscale self).
Qed.

(** ** The validator *)

(** C1 (as amended).  [clean] raises the cropping error exactly when the link
    check and the image-source check both pass and one of the nine forbidden
    pairs is on; in particular a configuration with [use_crop] and
    [use_upscale] on and every other toggle off never raises it. *)
Theorem clean_cropping_error_iff self :
  (clean self = Raise ConflictingCroppingOptionsError ↔
     at_most_one_link self ∧ has_image_source self ∧
     spec_forbidden_pair self) ∧
  (use_automatic_scaling self = false →
   use_no_cropping self = false →
   use_thumbnail self = None →
   use_crop self = true →
   use_upscale self = true →
   clean self ≠ Raise ConflictingCroppingOptionsError ∧
   ¬ spec_forbidden_pair self).
Proof.
  split.
  - rewrite clean_cases, <- link_conflict_false, <- image_missing_false,
      <- cropping_conflict_spec.
    destruct (link_conflict self), (image_missing self),
      (cropping_conflict self); split; try done;
      intros (? & ? & ?); done.
  - intros Ha Hn Ht _ _.
    pose proof (crop_upscale_alone_allowed self Ha Hn Ht) as Hc.
    rewrite <- cropping_conflict_spec, clean_cases, Hc.
    split; [|done].
    by destruct (link_conflict self), (image_missing self).
Qed.

(** C4.  A configuration with both [link_url] and [link_page] set is rejected
    with the link error. *)
Theorem clean_rejects_two_links self :
  link_url self ≠ "" →
  is_Some (link_page self) →
  clean self = Raise ConflictingLinkError.
Proof.
  intros Hurl Hpage.
  assert (link_conflict self = true) as Hc by by apply link_conflict_true.
  by rewrite clean_cases, Hc.
Qed.

(** C5 (as amended).  A configuration with neither an embedded image nor an
    external image URL, and with at most one link field set, is rejected with
    the missing-image error. *)
Theorem clean_rejects_missing_image self :
  picture self = None →
  external_picture self = "" →
  at_most_one_link self →
  clean self = Raise MissingImageSourceError.
Proof.
  intros Hpic Hext Hlink.
  apply link_conflict_false in Hlink.
  assert (image_missing self = true) as Hm by by apply image_missing_true.
  by rewrite clean_cases, Hlink, Hm.
Qed.

(** C6.  The link check runs before the image-source check: with both link
    fields set and no image source, the error is the link error and not the
    missing-image error. *)
Theorem clean_link_check_first self :
  link_url self ≠ "" →
  is_Some (link_page self) →
  picture self = None →
  external_picture self = "" →
  image_missing self = true ∧
  clean self = Raise ConflictingLinkError ∧
  clean self ≠ Raise MissingImageSourceError.
Proof.
  intros Hurl Hpage Hpic Hext.
  assert (link_conflict self = true) as Hc by by apply link_conflict_true.
  split; [by apply image_missing_true|].
  by rewrite clean_cases, Hc.
Qed.

(** ** The resolver *)

(** The explicit width and height: a null or zero field leaves the 0. *)
Lemma explicit_dimension (o : option Z) :
  match o with Some z => if truthy z then z else 0 | None => 0 end
    = default 0 o.
Proof.
  destruct o as [z|]; cbn; [|done].
  destruct (truthy z) eqn:Hz; [done|]. by apply truthy_int in Hz.
Qed.

(** C2.  When a preset is set, the directive carries the preset's width,
    height, crop and upscale, whatever the explicit size and the crop and
    upscale toggles say. *)
Theorem get_size_thumbnail_wins self (t : ThumbnailOption) :
  use_thumbnail self = Some t →
  get_size self =
    {| size := (thumb_width t, thumb_height t);
       crop := thumb_crop t;
       upscale := thumb_upscale t |}.
Proof. intros Ht. unfold get_size. by rewrite Ht. Qed.

(** C3.  Without a preset, the directive has the explicit width and height,
    0 where one is not set, and the crop and upscale toggles as they are. *)
Theorem get_size_without_thumbnail self :
  use_thumbnail self = None →
  get_size self =
    {| size := (default 0 (width self), default 0 (height self));
       crop := use_crop self;
       upscale := use_upscale self |}.
Proof.
  intros Ht. unfold get_size. rewrite Ht, !explicit_dimension. truth.
  by destruct (use_crop self), (use_upscale self).
Qed.

(** [get_size] reads [width], [height], [use_crop], [use_upscale] and
    [use_thumbnail], and nothing else. *)
Lemma get_size_reads (a b : Picture Page FilerImage) :
  width a = width b →
  height a = height b →
  use_crop a = use_crop b →
  use_upscale a = use_upscale b →
  use_thumbnail a = use_thumbnail b →
  get_size a = get_size b.
Proof. unfold get_size. by intros -> -> -> -> ->. Qed.

(** C8.  [use_automatic_scaling] and [use_no_cropping] do not reach
    [get_size]: two configurations equal in every other field resolve to the
    same directive. *)
Theorem get_size_ignores_scaling_flags (a b : Picture Page FilerImage) :
  same_except_scaling_flags a b →
  get_size a = get_size b ∧
  size (get_size a) = size (get_size b) ∧
  crop (get_size a) = crop (get_size b) ∧
  upscale (get_size a) = upscale (get_size b).
Proof.
  intros H. unfold same_except_scaling_flags in H. destruct_and!.
  assert (get_size a = get_size b) as -> by by apply get_size_reads.
  done.
Qed.

(** C9.  [picture] and [external_picture] do not reach [get_size]: two
    configurations equal in every other field resolve to the same directive,
    be the image embedded or external. *)
Theorem get_size_ignores_image_source (a b : Picture Page FilerImage) :
  same_except_image_source a b →
  get_size a = get_size b.
Proof.
  intros H. unfold same_except_image_source in H. destruct_and!.
  by apply get_size_reads.
Qed.

(** ** The link resolver *)

(** C7.  [get_link] is [link_url] when that is set, else the absolute URL of
    [link_page] when that is set, else [False], which is no string at all. *)
Theorem get_link_cases self :
  (link_url self ≠ "" →
     get_link get_absolute_url self = PyStr (link_url self)) ∧
  (link_url self = "" →
     ∀ p : Page, link_page self = Some p →
       get_link get_absolute_url self = PyStr (get_absolute_url p)) ∧
  (link_url self = "" →
     link_page self = None →
     get_link get_absolute_url self = PyBool false ∧
     ∀ s : string, get_link get_absolute_url self ≠ PyStr s).
Proof.
  unfold get_link. split; [|split].
  - intros Hurl%truthy_str. by rewrite Hurl.
  - intros Hurl%truthy_str_false p Hp. by rewrite Hurl, Hp.
  - intros Hurl%truthy_str_false Hp. by rewrite Hurl, Hp.
Qed.

End Properties.

(** ** The alignment choices *)

(** C10.  Without [DJANGOCMS_PICTURE_ALIGN] in the settings, the alignment
    choices store the value [left] twice, under the labels "Align left" and
    "Align center", and never the value [center]. *)
Theorem PICTURE_ALIGNMENT_default (settings : gmap string choices) :
  settings !! "DJANGOCMS_PICTURE_ALIGN" = None →
  ("left", "Align left") ∈ PICTURE_ALIGNMENT settings ∧
  ("left", "Align center") ∈ PICTURE_ALIGNMENT settings ∧
  count_value "left" (PICTURE_ALIGNMENT settings) = 2%nat ∧
  "center" ∉ choice_values (PICTURE_ALIGNMENT settings).
Proof.
  intros Hnone. unfold PICTURE_ALIGNMENT, getattr. rewrite Hnone.
  split; [by repeat constructor|].
  split; [by repeat constructor|].
  split; [reflexivity|].
  unfold choice_values. cbn. intros Hin.
  repeat (apply elem_of_cons in Hin as [Hin|Hin]; [done|]).
  by apply elem_of_nil in Hin.
Qed.

(** * The properties on concrete configurations *)

(** Both links set, an image attached, automatic scaling together with
    no-cropping: a forbidden pair is on, yet the error raised is the link
    error. *)
Lemma clean_cropping_error_not_iff_forbidden_pair :
  ¬ (clean two_links_bad_cropping = Raise ConflictingCroppingOptionsError ↔
     spec_forbidden_pair two_links_bad_cropping).
Proof.
  intros [_ Hback].
  assert (spec_forbidden_pair two_links_bad_cropping) as Hpair.
  { exists AutomaticScaling, NoCropping.
    split; [by constructor | by split]. }
  apply Hback in Hpair. vm_compute in Hpair. discriminate Hpair.
Qed.

(** Crop with upscale and nothing else: validation returns. *)
Lemma clean_cropping_error_iff_witness :
  clean crop_and_upscale = Return tt ∧
  clean crop_and_upscale ≠ Raise ConflictingCroppingOptionsError ∧
  ¬ spec_forbidden_pair crop_and_upscale.
Proof.
  split; [reflexivity|].
  apply (proj2 (clean_cropping_error_iff crop_and_upscale)); reflexivity.
Defined.

Lemma clean_rejects_two_links_witness :
  link_url two_links ≠ "" ∧
  is_Some (link_page two_links) ∧
  clean two_links = Raise ConflictingLinkError.
Proof.
  assert (link_url two_links ≠ "") as Hurl by (vm_compute; discriminate).
  assert (is_Some (link_page two_links)) as Hpage by (by eexists).
  split; [exact Hurl|]. split; [exact Hpage|].
  exact (clean_rejects_two_links two_links Hurl Hpage).
Defined.

(** No image source and both links set: the error is not the missing-image
    error. *)
Lemma clean_missing_image_not_reported :
  ¬ (picture two_links_no_image = None →
     external_picture two_links_no_image = "" →
     clean two_links_no_image = Raise MissingImageSourceError).
Proof.
  intros Hclaim. specialize (Hclaim eq_refl eq_refl).
  vm_compute in Hclaim. discriminate Hclaim.
Qed.

Lemma clean_rejects_missing_image_witness :
  picture no_image = None ∧
  external_picture no_image = "" ∧
  at_most_one_link no_image ∧
  clean no_image = Raise MissingImageSourceError.
Proof.
  assert (at_most_one_link no_image) as Hlink by (right; reflexivity).
  split; [reflexivity|]. split; [reflexivity|]. split; [exact Hlink|].
  exact (clean_rejects_missing_image no_image eq_refl eq_refl Hlink).
Defined.

Lemma clean_link_check_first_witness :
  image_missing two_links_no_image = true ∧
  clean two_links_no_image = Raise ConflictingLinkError ∧
  clean two_links_no_image ≠ Raise MissingImageSourceError.
Proof.
  apply (clean_link_check_first two_links_no_image).
  - vm_compute; discriminate.
  - by eexists.
  - reflexivity.
  - reflexivity.
Defined.

(** The precedence example: explicit 100x50 and [use_crop] lose to the
    preset. *)
Lemma get_size_thumbnail_wins_witness :
  width precedence_example = Some 100 ∧
  height precedence_example = Some 50 ∧
  use_crop precedence_example = true ∧
  get_size precedence_example =
    {| size := (300, 200); crop := false; upscale := true |}.
Proof.
  split; [reflexivity|]. split; [reflexivity|]. split; [reflexivity|].
  apply (get_size_thumbnail_wins precedence_example preset_300x200).
  reflexivity.
Defined.

(** No overrides at all: size (0, 0), no crop, no upscale. *)
Lemma get_size_without_thumbnail_witness :
  get_size no_overrides =
    {| size := (0, 0); crop := false; upscale := false |}.
Proof.
  apply (get_size_without_thumbnail no_overrides). reflexivity.
Defined.

Lemma get_size_ignores_scaling_flags_witness :
  use_automatic_scaling manual_crop ≠ use_automatic_scaling manual_crop_flagged ∧
  use_no_cropping manual_crop ≠ use_no_cropping manual_crop_flagged ∧
  get_size manual_crop = get_size manual_crop_flagged.
Proof.
  split; [vm_compute; discriminate|]. split; [vm_compute; discriminate|].
  apply (get_size_ignores_scaling_flags manual_crop manual_crop_flagged).
  repeat split; reflexivity.
Defined.

(** Embedded or external, the directive is the same. *)
Lemma get_size_ignores_image_source_witness :
  is_Some (picture manual_crop) ∧
  picture manual_crop_external = None ∧
  external_picture manual_crop_external ≠ "" ∧
  get_size manual_crop = get_size manual_crop_external.
Proof.
  split; [by eexists|]. split; [reflexivity|].
  split; [vm_compute; discriminate|].
  apply (get_size_ignores_image_source manual_crop manual_crop_external).
  repeat split; reflexivity.
Defined.

(** An external link wins, a page link resolves to its path, and no link is
    [False]. *)
Lemma get_link_cases_witness :
  get_link id two_links = PyStr "https://example.com/" ∧
  get_link id page_link_only = PyStr "/about/" ∧
  get_link id fresh = PyBool false.
Proof.
  split; [|split].
  - apply (proj1 (get_link_cases id two_links)).
    vm_compute; discriminate.
  - apply (proj1 (proj2 (get_link_cases id page_link_only)) eq_refl "/about/").
    reflexivity.
  - apply (proj2 (proj2 (get_link_cases id fresh)) eq_refl eq_refl).
Defined.

Lemma PICTURE_ALIGNMENT_default_witness :
  ("left", "Align left") ∈ PICTURE_ALIGNMENT no_settings ∧
  ("left", "Align center") ∈ PICTURE_ALIGNMENT no_settings ∧
  count_value "left" (PICTURE_ALIGNMENT no_settings) = 2%nat ∧
  "center" ∉ choice_values (PICTURE_ALIGNMENT no_settings).
Proof.
  apply (PICTURE_ALIGNMENT_default no_settings). reflexivity.
Defined.

(** * Further properties of the model's methods *)

(** ** Decimal rendering of the primary key *)

Lemma pretty_N_go_nonempty (x : N) (s : string) :
  s ≠ "" → pretty_N_go x s ≠ "".
Proof.
  revert s. induction (N.lt_wf_0 x) as [x _ IH]; intros s Hs.
  assert (x = 0 ∨ 0 < x)%N as [->|Hpos] by lia.
  - by rewrite pretty_N_go_0.
  - rewrite pretty_N_go_step by done. apply IH; [by apply N.div_lt | done].
Qed.

Lemma pretty_N_go_not_None (x : N) (s : string) :
  s ≠ "None" → pretty_N_go x s ≠ "None".
Proof.
  revert s. induction (N.lt_wf_0 x) as [x _ IH]; intros s Hs.
  assert (x = 0 ∨ 0 < x)%N as [->|Hpos] by lia.
  - by rewrite pretty_N_go_0.
  - rewrite pretty_N_go_step by done. apply IH; [by apply N.div_lt |].
    unfold pretty_N_char. by repeat case_match.
Qed.

Lemma pretty_positive_nonempty (p : positive) : pretty p ≠ "".
Proof.
  unfold pretty, pretty_positive, pretty, pretty_N.
  case_decide; [done|].
  rewrite pretty_N_go_step by lia. by apply pretty_N_go_nonempty.
Qed.

Lemma pretty_positive_not_None (p : positive) : pretty p ≠ "None".
Proof.
  unfold pretty, pretty_positive, pretty, pretty_N.
  case_decide; [done|]. by apply pretty_N_go_not_None.
Qed.

Lemma str_pk_nonempty (pk : option Z) : str_pk pk ≠ "".
Proof.
  destruct pk as [[|p|p]|]; cbn; try done.
  apply pretty_positive_nonempty.
Qed.

Lemma str_pk_inj (pk1 pk2 : option Z) : str_pk pk1 = str_pk pk2 → pk1 = pk2.
Proof.
  destruct pk1 as [x|], pk2 as [y|]; cbn; intros Heq.
  - f_equal. by apply (inj pretty).
  - destruct x as [|p|p]; cbn in Heq; try done.
    by destruct (pretty_positive_not_None p).
  - destruct y as [|p|p]; cbn in Heq; try done.
    by destruct (pretty_positive_not_None p).
  - done.
Qed.

Section Further.

Context {Page FilerImage : Type}.
Variable get_absolute_url : Page → string.
Variable label : FilerImage → string.

Implicit Types self a b : Picture Page FilerImage.

(** [clean] returns exactly when none of its three conditions holds. *)
Lemma clean_returns self :
  clean self = Return tt ↔
  link_conflict self = false ∧ image_missing self = false ∧
  cropping_conflict self = false.
Proof.
  rewrite clean_cases.
  destruct (link_conflict self), (image_missing self),
    (cropping_conflict self); split; try done; intros (? & ? & ?); done.
Qed.

Lemma cropping_conflict_false self :
  cropping_conflict self = false ↔ ¬ spec_forbidden_pair self.
Proof.
  rewrite <- cropping_conflict_spec. by destruct (cropping_conflict self).
Qed.

(** [clean] reads the link fields, the image fields and the toggles. *)
Lemma clean_reads a b :
  picture a = picture b →
  external_picture a = external_picture b →
  link_url a = link_url b →
  link_page a = link_page b →
  use_automatic_scaling a = use_automatic_scaling b →
  use_no_cropping a = use_no_cropping b →
  use_crop a = use_crop b →
  use_upscale a = use_upscale b →
  use_thumbnail a = use_thumbnail b →
  clean a = clean b.
Proof.
  intros Hp He Hu Hl Ha Hn Hc Hs Ht.
  unfold clean, link_conflict, image_missing, cropping_conflict.
  by rewrite Hp, He, Hu, Hl, Ha, Hn, Hc, Hs, Ht.
Qed.

(** ** The validator *)

(** X1.  [clean] accepts a configuration exactly when at most one link field
    is set, an image source is present and no forbidden pair is on. *)
Theorem clean_accepts_iff self :
  clean self = Return tt ↔
  at_most_one_link self ∧ has_image_source self ∧
  ¬ spec_forbidden_pair self.
Proof.
  by rewrite clean_returns, link_conflict_false, image_missing_false,
    cropping_conflict_false.
Qed.

(** X2.  The link error is raised exactly when both link fields are set,
    whatever the image fields and the toggles are. *)
Theorem clean_link_error_iff self :
  clean self = Raise ConflictingLinkError ↔
  link_url self ≠ "" ∧ is_Some (link_page self).
Proof.
  rewrite clean_cases, <- link_conflict_true.
  by destruct (link_conflict self), (image_missing self),
    (cropping_conflict self).
Qed.

(** X3.  The missing-image error is raised exactly when at most one link
    field is set and there is neither an embedded nor an external image,
    whatever the toggles are. *)
Theorem clean_missing_image_error_iff self :
  clean self = Raise MissingImageSourceError ↔
  at_most_one_link self ∧
  picture self = None ∧ external_picture self = "".
Proof.
  rewrite clean_cases, <- link_conflict_false, <- image_missing_true.
  destruct (link_conflict self), (image_missing self),
    (cropping_conflict self); split; try done; intros [? ?]; done.
Qed.

(** X4.  An accepted configuration is in one cropping mode: automatic
    scaling alone, the original image alone, a preset alone, or none of the
    three with crop and upscale free. *)
Theorem clean_accepts_one_cropping_mode self :
  clean self = Return tt →
  (use_automatic_scaling self = true ∧ use_no_cropping self = false ∧
   use_thumbnail self = None ∧
   use_crop self = false ∧ use_upscale self = false) ∨
  (use_automatic_scaling self = false ∧ use_no_cropping self = true ∧
   use_thumbnail self = None ∧
   use_crop self = false ∧ use_upscale self = false) ∨
  (use_automatic_scaling self = false ∧ use_no_cropping self = false ∧
   is_Some (use_thumbnail self) ∧
   use_crop self = false ∧ use_upscale self = false) ∨
  (use_automatic_scaling self = false ∧ use_no_cropping self = false ∧
   use_thumbnail self = None).
Proof.
  intros (_ & _ & Hc)%clean_returns. revert Hc.
  unfold cropping_conflict. truth.
  destruct (use_automatic_scaling self), (use_no_cropping self),
    (use_crop self), (use_upscale self), (use_thumbnail self);
    cbn; intros Hc; try discriminate Hc;
    first [ left; done
          | right; left; done
          | right; right; left; repeat split; by eexists
          | right; right; right; done ].
Qed.

(** X5.  [clean] does not look at the size, the alignment, the caption, the
    attributes or the link target: two configurations equal in every other
    field get the same verdict. *)
Theorem clean_ignores_presentation a b :
  same_except_presentation a b →
  clean a = clean b.
Proof.
  intros H. unfold same_except_presentation in H. destruct_and!.
  by apply clean_reads.
Qed.

(** ** The validator and the resolver together *)

(** X6.  In an accepted configuration with automatic scaling or the original
    image selected, the directive neither crops nor upscales and its size is
    the explicit one. *)
Theorem accepted_intent_flag_never_crops self :
  clean self = Return tt →
  use_automatic_scaling self = true ∨ use_no_cropping self = true →
  get_size self =
    {| size := (default 0 (width self), default 0 (height self));
       crop := false;
       upscale := false |}.
Proof.
  intros (_ & _ & Hc)%clean_returns Hflag. revert Hc.
  unfold get_size, cropping_conflict. rewrite !explicit_dimension. truth.
  destruct Hflag as [-> | ->];
    destruct (use_automatic_scaling self), (use_no_cropping self),
      (use_crop self), (use_upscale self), (use_thumbnail self);
    cbn; intros Hc; by try discriminate Hc.
Qed.

(** X7.  Beside a preset the explicit width and height are dead: changing
    them changes neither the verdict of [clean] nor the directive. *)
Theorem preset_makes_size_dead a b :
  same_except_size a b →
  is_Some (use_thumbnail a) →
  clean a = clean b ∧ get_size a = get_size b.
Proof.
  intros H [t Ht]. unfold same_except_size in H. destruct_and!.
  split; [by apply clean_reads|].
  assert (use_thumbnail b = Some t) as Htb by congruence.
  unfold get_size. by rewrite Ht, Htb.
Qed.

(** X8.  A stored width or height of 0 resolves like no width or height: the
    directive depends on the two fields only through their value with 0 for
    null. *)
Theorem get_size_zero_is_unset a b :
  same_except_size a b →
  default 0 (width a) = default 0 (width b) →
  default 0 (height a) = default 0 (height b) →
  get_size a = get_size b.
Proof.
  intros H Hw Hh. unfold same_except_size in H. destruct_and!.
  assert (use_crop a = use_crop b) as Hc by done.
  assert (use_upscale a = use_upscale b) as Hu by done.
  assert (use_thumbnail a = use_thumbnail b) as Ht by done.
  unfold get_size. by rewrite !explicit_dimension, Hw, Hh, Hc, Hu, Ht.
Qed.

(** X9.  With the non-negative sizes the integer fields admit, the resolved
    width and height are non-negative. *)
Theorem get_size_nonnegative self :
  (∀ w, width self = Some w → (0 ≤ w)%Z) →
  (∀ h, height self = Some h → (0 ≤ h)%Z) →
  (∀ t, use_thumbnail self = Some t →
     (0 ≤ thumb_width t)%Z ∧ (0 ≤ thumb_height t)%Z) →
  (0 ≤ (size (get_size self)).1)%Z ∧ (0 ≤ (size (get_size self)).2)%Z.
Proof.
  intros Hw Hh Ht. unfold get_size. rewrite !explicit_dimension.
  destruct (use_thumbnail self) as [t|]; cbn.
  - by apply Ht.
  - split.
    + destruct (width self) as [w|]; cbn; [by apply Hw | lia].
    + destruct (height self) as [h|]; cbn; [by apply Hh | lia].
Qed.

(** ** The link resolver *)

(** X10.  [get_link] is [False] exactly when neither link field is set, and
    it is never [True]. *)
Theorem get_link_false_iff self :
  (get_link get_absolute_url self = PyBool false ↔
     link_url self = "" ∧ link_page self = None) ∧
  get_link get_absolute_url self ≠ PyBool true.
Proof.
  unfold get_link. truth.
  destruct (link_url self) as [|c u], (link_page self) as [p|]; cbn;
    repeat split; try done; intros [? ?]; done.
Qed.

(** X11.  In an accepted configuration the link is unambiguous: [get_link]
    returns the one link field that is set, or [False] when none is. *)
Theorem accepted_link_unambiguous self :
  clean self = Return tt →
  (link_url self ≠ "" ∧ link_page self = None ∧
   get_link get_absolute_url self = PyStr (link_url self)) ∨
  (∃ p, link_url self = "" ∧ link_page self = Some p ∧
   get_link get_absolute_url self = PyStr (get_absolute_url p)) ∨
  (link_url self = "" ∧ link_page self = None ∧
   get_link get_absolute_url self = PyBool false).
Proof.
  intros (Hl & _ & _)%clean_returns. revert Hl.
  unfold link_conflict, get_link. truth.
  destruct (link_url self) as [|c u], (link_page self) as [p|]; cbn;
    intros Hl; try discriminate Hl.
  - right; left. by exists p.
  - right; right. done.
  - left. done.
Qed.

(** X12.  [get_link] returns the empty string only for an internal link to a
    page whose URL is empty; an external link is never returned empty. *)
Theorem get_link_empty_from_page self :
  get_link get_absolute_url self = PyStr "" →
  link_url self = "" ∧
  ∃ p, link_page self = Some p ∧ get_absolute_url p = "".
Proof.
  unfold get_link. truth.
  destruct (link_url self) as [|c u], (link_page self) as [p|]; cbn;
    intros Heq; try discriminate Heq.
  split; [done|]. exists p. split; [done|]. congruence.
Qed.

(** ** The string form *)

(** X13.  [__str__] is the image label when an image with a label is
    attached, else the external link when set, else the primary key. *)
Theorem str_cases (pk : option Z) self :
  (∀ img, picture self = Some img → label img ≠ "" →
     __str__ label pk self = label img) ∧
  ((picture self = None ∨ ∃ img, picture self = Some img ∧ label img = "") →
     link_url self ≠ "" →
     __str__ label pk self = link_url self) ∧
  ((picture self = None ∨ ∃ img, picture self = Some img ∧ label img = "") →
     link_url self = "" →
     __str__ label pk self = str_pk pk).
Proof.
  unfold __str__. split; [|split].
  - intros img -> Hl%truthy_str. truth. by rewrite Hl.
  - intros Hpic Hurl%truthy_str. rewrite Hurl.
    destruct Hpic as [-> | (img & -> & Hl%truthy_str_false)]; [done|].
    truth. by rewrite Hl.
  - intros Hpic Hurl%truthy_str_false. rewrite Hurl.
    destruct Hpic as [-> | (img & -> & Hl%truthy_str_false)]; [done|].
    truth. by rewrite Hl.
Qed.

(** X14.  [__str__] never returns the empty string. *)
Theorem str_nonempty (pk : option Z) self :
  __str__ label pk self ≠ "".
Proof.
  assert ((if truthy (link_url self) then link_url self else str_pk pk)
            ≠ "") as Hfallback.
  { destruct (truthy (link_url self)) eqn:Hurl.
    - by apply truthy_str.
    - apply str_pk_nonempty. }
  unfold __str__. destruct (picture self) as [img|]; [|done].
  truth. cbn. destruct (str_truthy (label img)) eqn:Hl; [|done].
  by apply truthy_str.
Qed.

(** X15.  Plugins without a labelled image and without an external link are
    told apart by [__str__] exactly as their primary keys are. *)
Theorem str_tells_keys_apart (pk1 pk2 : option Z) a b :
  picture a = None → link_url a = "" →
  picture b = None → link_url b = "" →
  __str__ label pk1 a = __str__ label pk2 b →
  pk1 = pk2.
Proof.
  unfold __str__. intros -> -> -> ->. cbn. apply str_pk_inj.
Qed.

End Further.

(** X16.  The three validation errors carry three different messages. *)
Theorem message_inj (e1 e2 : ValidationError) :
  message e1 = message e2 → e1 = e2.
Proof. destruct e1, e2; cbn; intros Heq; by try discriminate Heq. Qed.

(** * The further properties on concrete configurations *)

(** Crop with upscale, an image and no link: accepted. *)
Lemma clean_accepts_iff_witness :
  clean crop_and_upscale = Return tt.
Proof.
  apply (proj2 (clean_accepts_iff crop_and_upscale)).
  split; [left; reflexivity|].
  split; [left; by eexists|].
  apply cropping_conflict_false. reflexivity.
Defined.

(** Two links win over a forbidden pair. *)
Lemma clean_link_error_iff_witness :
  cropping_conflict two_links_bad_cropping = true ∧
  clean two_links_bad_cropping = Raise ConflictingLinkError.
Proof.
  split; [reflexivity|].
  apply (proj2 (clean_link_error_iff two_links_bad_cropping)).
  split; [vm_compute; discriminate | by eexists].
Defined.

(** No image wins over a forbidden pair. *)
Lemma clean_missing_image_error_iff_witness :
  cropping_conflict (with_cropping true true false false None no_image)
    = true ∧
  clean (with_cropping true true false false None no_image)
    = Raise MissingImageSourceError.
Proof.
  split; [reflexivity|].
  apply (proj2 (clean_missing_image_error_iff
                  (with_cropping true true false false None no_image))).
  split; [right; reflexivity|]. split; reflexivity.
Defined.

(** The preset alone is accepted and is the third mode. *)
Lemma clean_accepts_one_cropping_mode_witness :
  clean preset_sized = Return tt ∧
  use_automatic_scaling preset_sized = false ∧
  use_no_cropping preset_sized = false ∧
  is_Some (use_thumbnail preset_sized) ∧
  use_crop preset_sized = false ∧
  use_upscale preset_sized = false.
Proof.
  split; [reflexivity|].
  destruct (clean_accepts_one_cropping_mode preset_sized eq_refl)
    as [H|[H|[H|H]]].
  - destruct H as (_ & _ & H & _). discriminate H.
  - destruct H as (_ & _ & H & _). discriminate H.
  - exact H.
  - destruct H as (_ & _ & H). discriminate H.
Defined.

(** With or without an explicit size, the verdict is the same. *)
Lemma clean_ignores_presentation_witness :
  width auto_sized ≠ width (with_size None None auto_sized) ∧
  clean auto_sized = clean (with_size None None auto_sized).
Proof.
  split; [vm_compute; discriminate|].
  apply (clean_ignores_presentation auto_sized
           (with_size None None auto_sized)).
  repeat split; reflexivity.
Defined.

(** Automatic scaling with an explicit 100x50. *)
Lemma accepted_intent_flag_never_crops_witness :
  get_size auto_sized =
    {| size := (100, 50); crop := false; upscale := false |}.
Proof.
  apply (accepted_intent_flag_never_crops auto_sized).
  - reflexivity.
  - left. reflexivity.
Defined.

(** The preset with and without an explicit 100x50 beside it. *)
Lemma preset_makes_size_dead_witness :
  width preset_sized = Some 100 ∧
  width preset_unsized = None ∧
  clean preset_sized = clean preset_unsized ∧
  get_size preset_sized = get_size preset_unsized.
Proof.
  split; [reflexivity|]. split; [reflexivity|].
  apply (preset_makes_size_dead preset_sized preset_unsized).
  - repeat split; reflexivity.
  - by eexists.
Defined.

(** A stored 0x0 and no size at all. *)
Lemma get_size_zero_is_unset_witness :
  width zero_sized = Some 0 ∧
  width unsized = None ∧
  get_size zero_sized = get_size unsized.
Proof.
  split; [reflexivity|]. split; [reflexivity|].
  apply (get_size_zero_is_unset zero_sized unsized).
  - repeat split; reflexivity.
  - reflexivity.
  - reflexivity.
Defined.

Lemma get_size_nonnegative_witness :
  (0 ≤ (size (get_size precedence_example)).1)%Z ∧
  (0 ≤ (size (get_size precedence_example)).2)%Z.
Proof.
  apply (get_size_nonnegative precedence_example).
  - intros w [= <-]. lia.
  - intros h [= <-]. lia.
  - intros t [= <-]. cbn. lia.
Defined.

(** No link field set: [False]. *)
Lemma get_link_false_iff_witness :
  get_link id external_only = PyBool false.
Proof.
  apply (proj2 (proj1 (get_link_false_iff id external_only))).
  split; reflexivity.
Defined.

(** Only the internal link: the second case. *)
Lemma accepted_link_unambiguous_witness :
  clean page_link_only = Return tt ∧
  get_link id page_link_only = PyStr "/about/".
Proof.
  split; [reflexivity|].
  destruct (accepted_link_unambiguous id page_link_only eq_refl)
    as [(H & _) | [(p & _ & Hp & Hlink) | (_ & H & _)]].
  - destruct H. reflexivity.
  - injection Hp as <-. exact Hlink.
  - discriminate H.
Defined.

(** A page whose URL is empty. *)
Lemma get_link_empty_from_page_witness :
  link_url blank_page_link = "" ∧
  ∃ p, link_page blank_page_link = Some p ∧ id p = "".
Proof.
  apply (get_link_empty_from_page id blank_page_link). reflexivity.
Defined.

Lemma message_inj_witness :
  ConflictingLinkError = ConflictingLinkError.
Proof.
  apply (message_inj ConflictingLinkError ConflictingLinkError).
  reflexivity.
Defined.

(** A labelled image, an unlabelled image with a link, and a saved plugin
    with neither. *)
Lemma str_cases_witness :
  __str__ id (Some 7) two_links = "photo" ∧
  __str__ id (Some 7) unlabelled_linked = "https://example.com/" ∧
  __str__ id (Some 7) external_only = "7" ∧
  __str__ id None external_only = "None".
Proof.
  split; [|split; [|split]].
  - apply (proj1 (str_cases id (Some 7) two_links) "photo").
    + reflexivity.
    + vm_compute; discriminate.
  - apply (proj1 (proj2 (str_cases id (Some 7) unlabelled_linked))).
    + right. exists "". split; reflexivity.
    + vm_compute; discriminate.
  - apply (proj2 (proj2 (str_cases id (Some 7) external_only))).
    + left. reflexivity.
    + reflexivity.
  - apply (proj2 (proj2 (str_cases id None external_only))).
    + left. reflexivity.
    + reflexivity.
Defined.

Lemma str_nonempty_witness :
  __str__ id None fresh ≠ "".
Proof. apply (str_nonempty id None fresh). Defined.

Lemma str_tells_keys_apart_witness :
  Some 7 = Some 7 :> option Z.
Proof.
  apply (str_tells_keys_apart id (Some 7) (Some 7) external_only fresh);
    reflexivity.
Defined.
